(** * Currency_Converter.py: the PayPal fee and currency conversion core

    A shallow embedding of the two calculation functions of
    [Currency_Converter.py], [calculate_inr_from_usd] and
    [calculate_usd_for_target_inr], and the properties the specification
    states about them; then the script [main] that calls them, and further
    properties of all three.

    Numbers.  The source computes on Python [float]s.  The specification
    states its properties over exact arithmetic ("exact algebraic
    inverses", "total over all real-number inputs"), so the two functions
    are first embedded on exact rationals: [Qc], the rationals in lowest
    terms, on which [=] is equality of numbers and every operation
    evaluates.  They are embedded a second time, step for step, on
    binary64 ([Binary64]), the numbers the code runs on; there rounding is
    in, and the properties that need exact inversion or a strict order are
    refuted on concrete inputs.

    Effects.  Python's [/] raises [ZeroDivisionError] on a zero divisor and
    [st.error] adds an error element to the Streamlit page.  Both are kept:
    a computation threads the list of elements emitted so far and ends
    either in a value or in an exception. *)

From Stdlib Require Import QArith Qcanon List String.
From Stdlib Require Import PrimFloat.
Import ListNotations.

Local Open Scope Qc_scope.

(** ** Python numbers and their literals *)

Module Lit.

(** A decimal literal [n / d] of the source, e.g. [4.4] is [44 # 10]. *)
Definition dec (n : Z) (d : positive) : Qc := Q2Qc (n # d).

(** An integer literal. *)
Definition int (n : Z) : Qc := Q2Qc (inject_Z n).

End Lit.

(** [100], the divisor of both percentages. *)
Definition hundred : Qc := Lit.int 100.

(** Python's [x == y] on numbers. *)
Definition py_eq (x y : Qc) : bool := Qc_eq_bool x y.

(** ** The effects of the source *)

(** The exceptions the arithmetic of the source can raise. *)
Inductive exn : Type :=
| ZeroDivisionError.

(** The Streamlit elements the calculation functions emit. *)
Inductive st_call : Type :=
| st_error (body : string).

(** The page: the elements emitted so far, oldest first. *)
Definition page : Type := list st_call.

(** A computation: from the page before to an outcome and the page after.
    An exception keeps what was emitted before it was raised. *)
Definition Py (A : Type) : Type := page -> (exn + A) * page.

Definition ret {A : Type} (a : A) : Py A :=
  fun pg => (inr a, pg).

Definition raise {A : Type} (e : exn) : Py A :=
  fun pg => (inl e, pg).

Definition bind {A B : Type} (c : Py A) (k : A -> Py B) : Py B :=
  fun pg =>
    match c pg with
    | (inr a, pg') => k a pg'
    | (inl e, pg') => (inl e, pg')
    end.

Declare Scope py_scope.
Delimit Scope py_scope with py.
Notation "x <- c ;; k" := (bind c (fun x => k))
  (at level 61, c at next level, right associativity) : py_scope.
Notation "c ;; k" := (bind c (fun _ => k))
  (at level 61, right associativity) : py_scope.
Local Open Scope py_scope.

(** [st.error(body)]: one more element on the page, no result. *)
Definition st_error_call (body : string) : Py unit :=
  fun pg => (inr tt, pg ++ [st_error body]).

(** Python's true division [x / y]. *)
Definition truediv (x y : Qc) : Py Qc :=
  if py_eq y 0 then raise ZeroDivisionError else ret (x / y).

(** ** The two functions of the source *)

(** [calculate_inr_from_usd]: the INR received for an amount in USD, after
    the percentage fee, the fixed fee, the tax and the conversion. *)
Definition calculate_inr_from_usd
    (amount_usd paypal_fee_percent paypal_fixed_fee_usd
     tax_percent usd_to_inr_rate : Qc) : Py Qc :=
  fee_fraction <- truediv paypal_fee_percent hundred ;;
  let net_after_paypal_percent := amount_usd * (1 - fee_fraction) in
  let net_after_paypal_fees := net_after_paypal_percent - paypal_fixed_fee_usd in
  tax_fraction <- truediv tax_percent hundred ;;
  let net_after_tax_usd := net_after_paypal_fees * (1 - tax_fraction) in
  let final_inr := net_after_tax_usd * usd_to_inr_rate in
  ret final_inr.

(** The text of the error element of [calculate_usd_for_target_inr]. *)
Definition invalid_parameters : string :=
  "Invalid parameters. Please check your rates/fees.".

(** [calculate_usd_for_target_inr]: the USD to invoice so that the INR
    received is [target_inr]. *)
Definition calculate_usd_for_target_inr
    (target_inr paypal_fee_percent paypal_fixed_fee_usd
     tax_percent usd_to_inr_rate : Qc) : Py Qc :=
  p <- truediv paypal_fee_percent hundred ;;
  t <- truediv tax_percent hundred ;;
  let R := usd_to_inr_rate in
  let f := paypal_fixed_fee_usd in
  let denominator := R * (1 - t) in
  if py_eq denominator 0 || py_eq (1 - p) 0 then
    st_error_call invalid_parameters ;;
    ret 0
  else
    quotient <- truediv target_inr denominator ;;
    required_usd <- truediv (quotient + f) (1 - p) ;;
    ret required_usd.

(** ** The notions of the specification *)

(** The specification's degenerate parameters: the denominator
    [exchangeRate * (1 - taxPercent/100)] or the fee complement
    [1 - feePercent/100] is zero. *)
Definition degenerate (fee_percent tax_percent rate : Qc) : bool :=
  py_eq (rate * (1 - tax_percent / hundred)) 0
  || py_eq (1 - fee_percent / hundred) 0.

(** [calculate_inr_from_usd] is strictly increasing in the amount, for
    the given parameters. *)
Definition strictly_increasing_in_amount (fee fixed tax rate : Qc) : Prop :=
  forall (a b : Qc) (pg : page),
    a < b ->
    exists va vb : Qc,
      calculate_inr_from_usd a fee fixed tax rate pg = (inr va, pg) /\
      calculate_inr_from_usd b fee fixed tax rate pg = (inr vb, pg) /\
      va < vb.

(** ** The script: [main] *)

(** [main] is the Streamlit script.  A run reads the numbers the session
    holds for the number inputs and whether a submit button was clicked,
    and puts elements on the page.  What Streamlit and Python supply is
    taken as given: the session, and the formatting [format(x, ",.2f")] of
    the f-strings, a parameter [format_2f] of [main]. *)

(** The arguments of a [number_input] call. *)
Record number_input : Type := {
  label : string;
  min_value : Qc;
  value : Qc;
  step : Qc;
  help : option string
}.

(** The session of a run: the number each number input holds and whether
    each submit button was clicked, by label. *)
Record session : Type := {
  numbers : string -> Qc;
  clicked : string -> bool
}.

(** The elements [main] and the calculations put on the page. *)
Inductive element : Type :=
| el_title (body : string)
| el_write (body : string)
| el_sidebar_header (body : string)
| el_sidebar_number_input (w : number_input)
| el_subheader (body : string)
| el_form_enter (key : string)
| el_form_exit (key : string)
| el_number_input (w : number_input)
| el_form_submit_button (caption : string)
| el_success (body : string)
| el_error (body : string)
| el_markdown (body : string).

(** A step of the script: it reads the session and extends the page. *)
Definition Script (A : Type) : Type :=
  session -> list element -> (exn + A) * list element.

Definition script_ret {A : Type} (a : A) : Script A :=
  fun _ pg => (inr a, pg).

Definition script_bind {A B : Type} (c : Script A) (k : A -> Script B) : Script B :=
  fun s pg =>
    match c s pg with
    | (inr a, pg') => k a s pg'
    | (inl e, pg') => (inl e, pg')
    end.

Declare Scope script_scope.
Delimit Scope script_scope with script.
Notation "x <- c ;; k" := (script_bind c (fun x => k))
  (at level 61, c at next level, right associativity) : script_scope.
Notation "c ;; k" := (script_bind c (fun _ => k))
  (at level 61, right associativity) : script_scope.

Definition emit (e : element) : Script unit :=
  fun _ pg => (inr tt, pg ++ [e]).

Definition st_title (body : string) : Script unit := emit (el_title body).
Definition st_write (body : string) : Script unit := emit (el_write body).
Definition st_sidebar_header (body : string) : Script unit :=
  emit (el_sidebar_header body).
Definition st_subheader (body : string) : Script unit := emit (el_subheader body).
Definition st_markdown (body : string) : Script unit := emit (el_markdown body).
Definition st_success (body : string) : Script unit := emit (el_success body).

(** [st.sidebar.number_input] and [st.number_input]: the element goes on
    the page and the number the session holds for the label is returned. *)
Definition st_sidebar_number_input (w : number_input) : Script Qc :=
  fun s pg => (inr (numbers s (label w)), pg ++ [el_sidebar_number_input w]).

Definition st_number_input (w : number_input) : Script Qc :=
  fun s pg => (inr (numbers s (label w)), pg ++ [el_number_input w]).

(** [st.form_submit_button]: whether the button was clicked for this run. *)
Definition st_form_submit_button (caption : string) : Script bool :=
  fun s pg => (inr (clicked s caption), pg ++ [el_form_submit_button caption]).

(** [with st.form(key): body]: the form is entered, the body runs, and
    the form is left, also when the body raises. *)
Definition with_form {A : Type} (key : string) (body : Script A) : Script A :=
  fun s pg =>
    let (outcome, pg') := body s (pg ++ [el_form_enter key]) in
    (outcome, pg' ++ [el_form_exit key]).

(** An element of a calculation, on the page of the script. *)
Definition shown (c : st_call) : element :=
  match c with
  | st_error body => el_error body
  end.

(** A call of one of the two calculations from the script: what it emits
    goes on the page of the script. *)
Definition call {A : Type} (c : Py A) : Script A :=
  fun _ pg =>
    let (outcome, emitted) := c [] in
    (outcome, pg ++ map shown emitted).

(** A line break of a Python string. *)
Definition nl : string := String (Ascii.ascii_of_nat 10) EmptyString.

(** The triple-quoted text of the first [st.write]. *)
Definition introduction : string :=
  (nl
   ++ "        This tool helps you figure out how much INR you'll receive for a given USD amount"
   ++ nl
   ++ "        in your **PayPal Business (India)** account, and also how much USD to request to "
   ++ nl
   ++ "        finally get a specific INR after fees, taxes, and conversion."
   ++ nl
   ++ "        ")%string.

(** The four number inputs of the sidebar and the two of the forms. *)
Definition paypal_fee_percent_input : number_input :=
  {| label := "PayPal Fee Percentage (%)";
     min_value := 0;
     value := Lit.dec 44 10;
     step := Lit.dec 1 10;
     help := Some "Typical range ~4.4% for international transactions. Adjust as per your contract."%string |}.

Definition paypal_fixed_fee_usd_input : number_input :=
  {| label := "PayPal Fixed Fee (USD)";
     min_value := 0;
     value := Lit.dec 30 100;
     step := Lit.dec 1 100;
     help := Some "Typical fixed fee for PayPal. Adjust as needed."%string |}.

Definition tax_percent_input : number_input :=
  {| label := "Tax/TDS (%)";
     min_value := 0;
     value := 0;
     step := Lit.dec 1 10;
     help := Some "Tax on the PayPal net amount, if applicable. E.g., TDS 1-5% etc."%string |}.

Definition usd_to_inr_rate_input : number_input :=
  {| label := "USD to INR Exchange Rate";
     min_value := 1;
     value := Lit.int 82;
     step := Lit.dec 1 10;
     help := Some "Current or assumed USD → INR rate."%string |}.

Definition usd_amount_input : number_input :=
  {| label := "Enter amount in USD";
     min_value := 0;
     value := Lit.int 100;
     step := 1;
     help := None |}.

Definition inr_target_input : number_input :=
  {| label := "Enter target amount in INR";
     min_value := 0;
     value := Lit.int 10000;
     step := Lit.int 100;
     help := None |}.

(** The two f-strings of [st.success]. *)
Definition inr_received_text (format_2f : Qc -> string) (inr_received : Qc) : string :=
  ("You will receive approximately ₹" ++ format_2f inr_received)%string.

Definition usd_required_text (format_2f : Qc -> string)
    (inr_target usd_required : Qc) : string :=
  ("To receive ₹" ++ format_2f inr_target
   ++ ", you should request about $" ++ format_2f usd_required ++ ".")%string.

(** [main]. *)
Definition main (format_2f : Qc -> string) : Script unit :=
  (st_title "PayPal Fee & Currency Conversion Calculator" ;;
   st_write introduction ;;
   st_sidebar_header "Configure Fees & Rates" ;;
   paypal_fee_percent <- st_sidebar_number_input paypal_fee_percent_input ;;
   paypal_fixed_fee_usd <- st_sidebar_number_input paypal_fixed_fee_usd_input ;;
   tax_percent <- st_sidebar_number_input tax_percent_input ;;
   usd_to_inr_rate <- st_sidebar_number_input usd_to_inr_rate_input ;;
   st_subheader "1. USD → INR Calculation" ;;
   st_write "**How much INR will I receive if someone sends me X USD?**" ;;
   with_form "usd_to_inr"
     (usd_amount <- st_number_input usd_amount_input ;;
      submitted_1 <- st_form_submit_button "Calculate INR" ;;
      if submitted_1 : bool then
        inr_received <- call (calculate_inr_from_usd
                                usd_amount paypal_fee_percent
                                paypal_fixed_fee_usd tax_percent
                                usd_to_inr_rate) ;;
        st_success (inr_received_text format_2f inr_received)
      else script_ret tt) ;;
   st_markdown "---" ;;
   st_subheader "2. Target INR → Required USD Calculation" ;;
   st_write "**I want to receive X INR in my bank. How much USD should I invoice so that after all fees I get that INR?**" ;;
   with_form "inr_to_usd"
     (inr_target <- st_number_input inr_target_input ;;
      submitted_2 <- st_form_submit_button "Calculate USD" ;;
      if submitted_2 : bool then
        usd_required <- call (calculate_usd_for_target_inr
                                inr_target paypal_fee_percent
                                paypal_fixed_fee_usd tax_percent
                                usd_to_inr_rate) ;;
        st_success (usd_required_text format_2f inr_target usd_required)
      else script_ret tt))%script.

(** ** Notions about a run of [main] *)

(** The page a run of [main] renders, from an empty page. *)
Definition rendered (format_2f : Qc -> string) (s : session) : list element :=
  snd (main format_2f s []).

(** The number inputs of [main]. *)
Definition number_inputs : list number_input :=
  [paypal_fee_percent_input; paypal_fixed_fee_usd_input; tax_percent_input;
   usd_to_inr_rate_input; usd_amount_input; inr_target_input].

(** Streamlit's promise for [min_value]: the number a number input
    returns is not below it. *)
Definition within_minimums (s : session) : Prop :=
  Forall (fun w => min_value w <= numbers s (label w)) number_inputs.

(** The elements that report a result: [st.success] and [st.error]. *)
Definition is_result (e : element) : bool :=
  match e with
  | el_success _ | el_error _ => true
  | _ => false
  end.

(** The numbers [main] reads in a run, named after its variables. *)
Definition paypal_fee_percent_of (s : session) : Qc :=
  numbers s (label paypal_fee_percent_input).
Definition paypal_fixed_fee_usd_of (s : session) : Qc :=
  numbers s (label paypal_fixed_fee_usd_input).
Definition tax_percent_of (s : session) : Qc :=
  numbers s (label tax_percent_input).
Definition usd_to_inr_rate_of (s : session) : Qc :=
  numbers s (label usd_to_inr_rate_input).
Definition usd_amount_of (s : session) : Qc :=
  numbers s (label usd_amount_input).
Definition inr_target_of (s : session) : Qc :=
  numbers s (label inr_target_input).

(** The session of a first run: every number input holds its [value]. *)
Definition initial_number (l : string) : Qc :=
  match find (fun w => String.eqb (label w) l) number_inputs with
  | Some w => value w
  | None => 0
  end.

Definition first_run (clicks : string -> bool) : session :=
  {| numbers := initial_number; clicked := clicks |}.

(** What the two forms add to the page between their submit button and
    their end, in a run. *)
Definition first_form_report (format_2f : Qc -> string) (s : session) : list element :=
  if clicked s "Calculate INR"
  then [el_success
          (inr_received_text format_2f
             ((usd_amount_of s * (1 - paypal_fee_percent_of s / hundred)
               - paypal_fixed_fee_usd_of s)
              * (1 - tax_percent_of s / hundred) * usd_to_inr_rate_of s))]
  else [].

Definition second_form_report (format_2f : Qc -> string) (s : session) : list element :=
  if clicked s "Calculate USD"
  then
    if degenerate (paypal_fee_percent_of s) (tax_percent_of s) (usd_to_inr_rate_of s)
    then [el_error invalid_parameters;
          el_success (usd_required_text format_2f (inr_target_of s) 0)]
    else [el_success
            (usd_required_text format_2f (inr_target_of s)
               ((inr_target_of s
                 / (usd_to_inr_rate_of s * (1 - tax_percent_of s / hundred))
                 + paypal_fixed_fee_usd_of s)
                / (1 - paypal_fee_percent_of s / hundred)))]
  else [].

(** ** The two functions on binary64 *)

(** The same two functions on Python's own numbers, the binary64 floats:
    the steps are those of the source, each operation rounds, and the
    effects are the ones above.  What the exact formulas promise and the
    rounded ones do not keep is decided here. *)

Module Binary64.

Local Open Scope float_scope.

(** Python's [x == y] on floats: -0.0 equals 0 and NaN equals nothing. *)
Definition py_eq (x y : float) : bool := PrimFloat.eqb x y.

(** Python's [x < y] on floats. *)
Definition py_lt (x y : float) : bool := PrimFloat.ltb x y.

(** Python's true division [x / y] on floats: a divisor of 0.0 or -0.0
    raises. *)
Definition truediv (x y : float) : Py float :=
  if py_eq y 0 then raise ZeroDivisionError else ret (x / y).

Definition calculate_inr_from_usd
    (amount_usd paypal_fee_percent paypal_fixed_fee_usd
     tax_percent usd_to_inr_rate : float) : Py float :=
  fee_fraction <- truediv paypal_fee_percent 100 ;;
  let net_after_paypal_percent := amount_usd * (1 - fee_fraction) in
  let net_after_paypal_fees := net_after_paypal_percent - paypal_fixed_fee_usd in
  tax_fraction <- truediv tax_percent 100 ;;
  let net_after_tax_usd := net_after_paypal_fees * (1 - tax_fraction) in
  let final_inr := net_after_tax_usd * usd_to_inr_rate in
  ret final_inr.

Definition calculate_usd_for_target_inr
    (target_inr paypal_fee_percent paypal_fixed_fee_usd
     tax_percent usd_to_inr_rate : float) : Py float :=
  p <- truediv paypal_fee_percent 100 ;;
  t <- truediv tax_percent 100 ;;
  let R := usd_to_inr_rate in
  let f := paypal_fixed_fee_usd in
  let denominator := R * (1 - t) in
  if (py_eq denominator 0 || py_eq (1 - p) 0)%bool then
    st_error_call invalid_parameters ;;
    ret 0
  else
    quotient <- truediv target_inr denominator ;;
    required_usd <- truediv (quotient + f) (1 - p) ;;
    ret required_usd.


(** [calculate_inr_from_usd] is strictly increasing in the amount, for
    the given parameters. *)
Definition strictly_increasing_in_amount (fee fixed tax rate : float) : Prop :=
  forall a b : float,
    py_lt a b = true ->
    exists va vb : float,
      calculate_inr_from_usd a fee fixed tax rate [] = (inr va, []) /\
      calculate_inr_from_usd b fee fixed tax rate [] = (inr vb, []) /\
      py_lt va vb = true.

End Binary64.

(** * Facts *)

(** ** Numbers *)

Lemma py_eq_true (x y : Qc) : py_eq x y = true <-> x = y.
Proof.
  unfold py_eq. split.
  - apply Qc_eq_bool_correct.
  - intros ->. unfold Qc_eq_bool. destruct (Qc_eq_dec y y) as [_ | ne].
    + reflexivity.
    + now elim ne.
Qed.

Lemma py_eq_false (x y : Qc) : py_eq x y = false <-> x <> y.
Proof.
  split.
  - intros E H. apply py_eq_true in H. congruence.
  - intros ne. destruct (py_eq x y) eqn:E.
    + apply py_eq_true in E. contradiction.
    + reflexivity.
Qed.

Lemma hundred_nonzero : hundred <> 0.
Proof. apply py_eq_false. reflexivity. Qed.

Lemma product_nonzero (x y : Qc) : x * y <> 0 -> x <> 0 /\ y <> 0.
Proof.
  intros H. split; intros E; apply H; rewrite E; ring.
Qed.

(** ** Running the primitives *)

Lemma truediv_nonzero (x y : Qc) (pg : page) :
  y <> 0 -> truediv x y pg = (inr (x / y), pg).
Proof.
  intros ne. unfold truediv. apply py_eq_false in ne. now rewrite ne.
Qed.

Lemma truediv_zero (x : Qc) (pg : page) :
  truediv x 0 pg = (inl ZeroDivisionError, pg).
Proof. reflexivity. Qed.

Lemma truediv_hundred (x : Qc) (pg : page) :
  truediv x hundred pg = (inr (x / hundred), pg).
Proof. apply truediv_nonzero, hundred_nonzero. Qed.

Lemma degenerate_false (fee tax rate : Qc) :
  rate * (1 - tax / hundred) <> 0 ->
  1 - fee / hundred <> 0 ->
  degenerate fee tax rate = false.
Proof.
  intros Hd Hp. unfold degenerate.
  apply py_eq_false in Hd. apply py_eq_false in Hp.
  now rewrite Hd, Hp.
Qed.

Lemma degenerate_true (fee tax rate : Qc) :
  rate * (1 - tax / hundred) = 0 \/ 1 - fee / hundred = 0 ->
  degenerate fee tax rate = true.
Proof.
  unfold degenerate. intros [Hd | Hp].
  - apply py_eq_true in Hd. now rewrite Hd.
  - apply py_eq_true in Hp. rewrite Hp. apply Bool.orb_true_r.
Qed.

(** ** Running the two functions *)

(** The forward calculation never raises and leaves the page as it was. *)
Lemma run_calculate_inr_from_usd (a fee fixed tax rate : Qc) (pg : page) :
  calculate_inr_from_usd a fee fixed tax rate pg =
  (inr ((a * (1 - fee / hundred) - fixed) * (1 - tax / hundred) * rate), pg).
Proof.
  unfold calculate_inr_from_usd, bind.
  rewrite truediv_hundred, truediv_hundred. reflexivity.
Qed.

(** The inverse calculation, by cases on the guard of the source. *)
Lemma run_calculate_usd_for_target_inr (target fee fixed tax rate : Qc) (pg : page) :
  calculate_usd_for_target_inr target fee fixed tax rate pg =
  if degenerate fee tax rate
  then (inr 0, pg ++ [st_error invalid_parameters])
  else (inr ((target / (rate * (1 - tax / hundred)) + fixed)
             / (1 - fee / hundred)), pg).
Proof.
  unfold calculate_usd_for_target_inr, bind.
  rewrite truediv_hundred, truediv_hundred.
  fold (degenerate fee tax rate).
  destruct (degenerate fee tax rate) eqn:G.
  - reflexivity.
  - unfold degenerate in G. apply Bool.orb_false_elim in G as [Gd Gp].
    apply py_eq_false in Gd. apply py_eq_false in Gp.
    rewrite (truediv_nonzero _ _ _ Gd), (truediv_nonzero _ _ _ Gp).
    reflexivity.
Qed.

(** Two returns on the same page agree when their numbers do. *)
Lemma same_return (x y : Qc) (pg : page) :
  x = y -> (@inr exn Qc x, pg) = (inr y, pg).
Proof. now intros ->. Qed.

(** Closed numbers are compared by evaluation. *)
Ltac evaluate := apply Qc_is_canon; reflexivity.




(** A target of 0 INR without fees or tax at 1 INR per USD needs 0 USD,
    and 0 is what a fee of 100 % gives as well. *)
Lemma zero_without_fees (pg : page) :
  calculate_usd_for_target_inr 0 0 0 0 1 pg = (inr 0, pg).
Proof.
  rewrite run_calculate_usd_for_target_inr.
  change (degenerate 0 0 1) with false.
  apply same_return. evaluate.
Qed.

Lemma zero_at_full_fee (pg : page) :
  calculate_usd_for_target_inr 0 hundred 0 0 1 pg =
  (inr 0, pg ++ [st_error invalid_parameters]).
Proof.
  rewrite run_calculate_usd_for_target_inr.
  change (degenerate hundred 0 1) with true. reflexivity.
Qed.

(** * The properties of the specification *)

(** C2.  For every input, [calculate_inr_from_usd] returns exactly
    [((amountUSD * (1 - feePercent/100)) - fixedFee) * (1 - taxPercent/100)
    * exchangeRate], raising nothing and emitting nothing. *)
Theorem calculate_inr_from_usd_formula
    (amountUSD feePercent fixedFee taxPercent exchangeRate : Qc) (pg : page) :
  calculate_inr_from_usd amountUSD feePercent fixedFee taxPercent exchangeRate pg =
  (inr (((amountUSD * (1 - feePercent / hundred)) - fixedFee)
        * (1 - taxPercent / hundred) * exchangeRate), pg).
Proof. apply run_calculate_inr_from_usd. Qed.

(** C3.  When the denominator [exchangeRate * (1 - taxPercent/100)] and
    the fee complement [1 - feePercent/100] are both nonzero,
    [calculate_usd_for_target_inr] returns exactly
    [((targetINR / denominator) + fixedFee) / (1 - feePercent/100)]. *)
Theorem calculate_usd_for_target_inr_formula
    (targetINR feePercent fixedFee taxPercent exchangeRate : Qc) (pg : page) :
  let denominator := exchangeRate * (1 - taxPercent / hundred) in
  denominator <> 0 ->
  1 - feePercent / hundred <> 0 ->
  calculate_usd_for_target_inr targetINR feePercent fixedFee taxPercent exchangeRate pg =
  (inr (((targetINR / denominator) + fixedFee) / (1 - feePercent / hundred)), pg).
Proof.
  intros denominator Hd Hp.
  rewrite run_calculate_usd_for_target_inr.
  now rewrite (degenerate_false _ _ _ Hd Hp).
Qed.

(** C3 at the defaults of the form: 10000 INR at 4.4 %, 0.30 USD, no tax
    and 82 INR per USD. *)
Lemma calculate_usd_for_target_inr_formula_witness :
  Lit.int 82 * (1 - 0 / hundred) <> 0 /\
  1 - Lit.dec 44 10 / hundred <> 0 /\
  calculate_usd_for_target_inr
    (Lit.int 10000) (Lit.dec 44 10) (Lit.dec 30 100) 0 (Lit.int 82) [] =
  (inr (((Lit.int 10000 / (Lit.int 82 * (1 - 0 / hundred))) + Lit.dec 30 100)
        / (1 - Lit.dec 44 10 / hundred)), []).
Proof.
  assert (Hd : Lit.int 82 * (1 - 0 / hundred) <> 0)
    by (apply py_eq_false; reflexivity).
  assert (Hp : 1 - Lit.dec 44 10 / hundred <> 0)
    by (apply py_eq_false; reflexivity).
  split; [exact Hd | split; [exact Hp |]].
  exact (calculate_usd_for_target_inr_formula
           (Lit.int 10000) (Lit.dec 44 10) (Lit.dec 30 100) 0 (Lit.int 82) []
           Hd Hp).
Defined.



(** C4.  Degenerate fallback: when [exchangeRate * (1 - taxPercent/100)]
    or [1 - feePercent/100] is zero, in particular when [feePercent] is
    100, [exchangeRate] is 0 or [taxPercent] is 100,
    [calculate_usd_for_target_inr] emits the InvalidParameters error element
    and returns the fallback 0, whatever [targetINR] and the other
    parameters are; it raises nothing. *)
Theorem degenerate_fallback
    (targetINR feePercent fixedFee taxPercent exchangeRate : Qc) (pg : page) :
  exchangeRate * (1 - taxPercent / hundred) = 0 \/
  1 - feePercent / hundred = 0 \/
  feePercent = hundred \/ exchangeRate = 0 \/ taxPercent = hundred ->
  calculate_usd_for_target_inr targetINR feePercent fixedFee taxPercent exchangeRate pg =
  (inr 0, pg ++ [st_error invalid_parameters]).
Proof.
  intros H.
  assert (G : degenerate feePercent taxPercent exchangeRate = true).
  { apply degenerate_true.
    destruct H as [H | [H | [H | [H | H]]]].
    - now left.
    - now right.
    - right. rewrite H. field. apply hundred_nonzero.
    - left. rewrite H. ring.
    - left. rewrite H. field. apply hundred_nonzero. }
  rewrite run_calculate_usd_for_target_inr. now rewrite G.
Qed.

(** C4 at the third concrete case of the specification: 5000 INR at a fee
    of 100 %. *)
Lemma degenerate_fallback_witness :
  calculate_usd_for_target_inr
    (Lit.int 5000) hundred (Lit.dec 30 100) 0 (Lit.int 82) [] =
  (inr 0, [st_error invalid_parameters]).
Proof.
  apply (degenerate_fallback
           (Lit.int 5000) hundred (Lit.dec 30 100) 0 (Lit.int 82) []).
  right. right. left. reflexivity.
Defined.

(** C10.  Division safety: [calculate_usd_for_target_inr] returns a number
    on every input and every page; no division of it raises
    [ZeroDivisionError]. *)
Theorem calculate_usd_for_target_inr_total
    (targetINR feePercent fixedFee taxPercent exchangeRate : Qc) (pg : page) :
  exists (usd : Qc) (pg' : page),
    calculate_usd_for_target_inr
      targetINR feePercent fixedFee taxPercent exchangeRate pg = (inr usd, pg').
Proof.
  rewrite run_calculate_usd_for_target_inr.
  destruct (degenerate feePercent taxPercent exchangeRate); eauto.
Qed.

(** C7.  [calculate_inr_from_usd] returns a number on every input, raises
    nothing and leaves the page as it was; and it does not clamp: with a
    fixed fee of 2 USD on an amount of 1 USD it returns -1. *)
Theorem calculate_inr_from_usd_total_unclamped :
  (forall (amountUSD feePercent fixedFee taxPercent exchangeRate : Qc) (pg : page),
      exists inr_amount : Qc,
        calculate_inr_from_usd
          amountUSD feePercent fixedFee taxPercent exchangeRate pg =
        (inr inr_amount, pg)) /\
  (exists (amountUSD feePercent fixedFee taxPercent exchangeRate inr_amount : Qc),
      (forall pg : page,
          calculate_inr_from_usd
            amountUSD feePercent fixedFee taxPercent exchangeRate pg =
          (inr inr_amount, pg)) /\
      inr_amount < 0).
Proof.
  split.
  - intros. rewrite run_calculate_inr_from_usd. eauto.
  - exists 1, 0, (Lit.int 2), 0, 1, (Lit.int (-1)). split.
    + intros pg. rewrite run_calculate_inr_from_usd.
      apply same_return. evaluate.
    + reflexivity.
Qed.

(** C8.  Concrete forward case: [calculate_inr_from_usd(100, 4.4, 0.30,
    0.0, 82.0)] is [(100*(1-0.044) - 0.30) * 1.0 * 82.0], which is
    [95.3 * 82.0], which is 7814.6. *)
Theorem concrete_case_1 (pg : page) :
  calculate_inr_from_usd
    (Lit.int 100) (Lit.dec 44 10) (Lit.dec 30 100) 0 (Lit.int 82) pg =
  (inr (Lit.dec 78146 10), pg) /\
  (Lit.int 100 * (1 - Lit.dec 44 1000) - Lit.dec 30 100) * 1 * Lit.int 82 =
  Lit.dec 78146 10 /\
  Lit.dec 953 10 * Lit.int 82 = Lit.dec 78146 10.
Proof.
  split; [| split].
  - rewrite run_calculate_inr_from_usd.
    apply same_return. evaluate.
  - evaluate.
  - evaluate.
Qed.

(** C9.  Sentinel ambiguity: on the non-degenerate parameters 4.4 %, no
    fixed fee, no tax, 82 INR per USD, a target of 0 INR makes
    [calculate_usd_for_target_inr] return 0, the value it also returns on
    degenerate parameters (a fee of 100 %). *)
Theorem zero_is_ambiguous :
  exists (targetINR feePercent fixedFee taxPercent exchangeRate : Qc),
    exchangeRate * (1 - taxPercent / hundred) <> 0 /\
    1 - feePercent / hundred <> 0 /\
    (forall pg : page,
        fst (calculate_usd_for_target_inr
               targetINR feePercent fixedFee taxPercent exchangeRate pg) = inr 0) /\
    (forall pg : page,
        fst (calculate_usd_for_target_inr
               targetINR hundred fixedFee taxPercent exchangeRate pg) = inr 0).
Proof.
  exists 0, (Lit.dec 44 10), 0, 0, (Lit.int 82).
  split; [apply py_eq_false; reflexivity |].
  split; [apply py_eq_false; reflexivity |].
  split; intros pg; rewrite run_calculate_usd_for_target_inr.
  - change (degenerate (Lit.dec 44 10) 0 (Lit.int 82)) with false.
    cbn [fst]. f_equal. evaluate.
  - change (degenerate hundred 0 (Lit.int 82)) with true. reflexivity.
Qed.

(** C5, as the specification states it, fails: no flag computed from the
    value [calculate_usd_for_target_inr] returns tells whether the
    parameters were degenerate.  Without fees at 1 INR per USD and at a
    fee of 100 %, a target of 0 INR returns the same 0. *)
Lemma no_degenerate_flag_in_return_value :
  ~ exists flag : exn + Qc -> bool,
      forall (targetINR feePercent fixedFee taxPercent exchangeRate : Qc)
             (pg : page),
        flag (fst (calculate_usd_for_target_inr
                     targetINR feePercent fixedFee taxPercent exchangeRate pg)) =
        degenerate feePercent taxPercent exchangeRate.
Proof.
  intros [flag H].
  pose proof (H 0 0 0 0 1 []) as sound.
  pose proof (H 0 hundred 0 0 1 []) as full.
  rewrite zero_without_fees in sound. rewrite zero_at_full_fee in full.
  cbn [fst] in sound, full.
  change (degenerate 0 0 1) with false in sound.
  change (degenerate hundred 0 1) with true in full.
  congruence.
Qed.

(** C5, amended.  [calculate_usd_for_target_inr] returns the number alone;
    whether the parameters were degenerate shows on the page only: the
    InvalidParameters error element is added when they are, and the page
    is left as it was when they are not. *)
Theorem degenerate_shows_on_page_only
    (targetINR feePercent fixedFee taxPercent exchangeRate : Qc) (pg : page) :
  exists usd : Qc,
    calculate_usd_for_target_inr
      targetINR feePercent fixedFee taxPercent exchangeRate pg =
    (inr usd,
     if degenerate feePercent taxPercent exchangeRate
     then pg ++ [st_error invalid_parameters]
     else pg).
Proof.
  rewrite run_calculate_usd_for_target_inr.
  destruct (degenerate feePercent taxPercent exchangeRate); eauto.
Qed.

(** The sign matters in exact arithmetic too: non-degenerate parameters
    with a positive fee complement do not make [calculate_inr_from_usd]
    increasing.  At a tax of 200 % the amounts 0 and 1 USD give 0 and -1
    INR. *)
Lemma not_increasing_on_all_non_degenerate :
  ~ (forall feePercent fixedFee taxPercent exchangeRate : Qc,
        exchangeRate * (1 - taxPercent / hundred) <> 0 ->
        1 - feePercent / hundred <> 0 ->
        0 < 1 - feePercent / hundred ->
        strictly_increasing_in_amount
          feePercent fixedFee taxPercent exchangeRate).
Proof.
  intros H.
  assert (Hd : 1 * (1 - Lit.int 200 / hundred) <> 0)
    by (apply py_eq_false; reflexivity).
  assert (Hp : 1 - 0 / hundred <> 0) by (apply py_eq_false; reflexivity).
  assert (Hk : 0 < 1 - 0 / hundred) by reflexivity.
  assert (Hab : 0 < 1) by reflexivity.
  destruct (H 0 0 (Lit.int 200) 1 Hd Hp Hk 0 1 [] Hab)
    as (va & vb & Ea & Eb & Hlt).
  rewrite run_calculate_inr_from_usd in Ea, Eb.
  injection Ea as <-. injection Eb as <-.
  revert Hlt. apply Qcle_not_lt. discriminate.
Qed.



(** * A further concrete case *)

(** [calculate_usd_for_target_inr(10000, 4.4, 0.30, 0.0, 82.0)]: the
    denominator is 82 and the fee complement 0.956; the required amount is
    [(10000/82 + 0.30) / 0.956], between 127.87 and 127.88 USD. *)
Example concrete_case_2 :
  exists usd : Qc,
    calculate_usd_for_target_inr
      (Lit.int 10000) (Lit.dec 44 10) (Lit.dec 30 100) 0 (Lit.int 82) [] =
    (inr usd, []) /\
    usd = (Lit.int 10000 / Lit.int 82 + Lit.dec 30 100) / Lit.dec 956 1000 /\
    Lit.dec 12787 100 < usd /\ usd < Lit.dec 12788 100.
Proof.
  eexists. split.
  - rewrite run_calculate_usd_for_target_inr.
    change (degenerate (Lit.dec 44 10) 0 (Lit.int 82)) with false.
    reflexivity.
  - split; [evaluate | split; reflexivity].
Qed.

(** * Further properties of the two calculations *)

(** ** Algebra and order *)

Lemma complement_zero (x : Qc) : 1 - x / hundred = 0 <-> x = hundred.
Proof.
  split.
  - intros H.
    replace x with (hundred - (1 - x / hundred) * hundred)
      by (field; apply hundred_nonzero).
    rewrite H. ring.
  - intros ->. field. apply hundred_nonzero.
Qed.

Lemma degenerate_iff (fee tax rate : Qc) :
  degenerate fee tax rate = true <->
  fee = hundred \/ tax = hundred \/ rate = 0.
Proof.
  unfold degenerate. rewrite Bool.orb_true_iff, !py_eq_true, !complement_zero.
  split.
  - intros [H | H].
    + apply Qcmult_integral in H as [H | H].
      * now right; right.
      * apply complement_zero in H. now right; left.
    + now left.
  - intros [H | [H | H]].
    + now right.
    + left. rewrite H. field. apply hundred_nonzero.
    + left. rewrite H. ring.
Qed.

Lemma product_nonnegative (x y : Qc) : 0 <= x -> 0 <= y -> 0 <= x * y.
Proof.
  intros Hx Hy. replace 0 with (0 * y) by ring.
  now apply Qcmult_le_compat_r.
Qed.

Lemma sum_nonnegative (x y : Qc) : 0 <= x -> 0 <= y -> 0 <= x + y.
Proof.
  intros Hx Hy. replace 0 with (0 + 0) by ring.
  now apply Qcplus_le_compat.
Qed.

Lemma inverse_positive (x : Qc) : 0 < x -> 0 < / x.
Proof.
  intros Hx. apply Qcnot_le_lt. intros Hle.
  assert (Hone : x * / x = 1) by (field; now apply Qclt_not_eq, not_eq_sym in Hx).
  assert (Hneg : / x * x <= 0 * x)
    by (apply Qcmult_le_compat_r; [exact Hle | now apply Qclt_le_weak]).
  rewrite Qcmult_comm, Hone, Qcmult_0_l in Hneg.
  revert Hneg. now apply Qclt_not_le.
Qed.

(** The complement of a percentage between 0 and 100 is between 0 and 1. *)
Lemma complement_range (x : Qc) :
  0 <= x -> x <= hundred ->
  0 <= 1 - x / hundred /\ 0 <= 1 - (1 - x / hundred).
Proof.
  intros H0 H100.
  assert (Hc : 0 <= / hundred) by (apply Qclt_le_weak, inverse_positive; reflexivity).
  split.
  - replace (1 - x / hundred) with ((hundred + - x) * / hundred)
      by (field; apply hundred_nonzero).
    apply product_nonnegative; [now apply (proj1 (Qcle_minus_iff _ _)) | exact Hc].
  - replace (1 - (1 - x / hundred)) with (x * / hundred)
      by (field; apply hundred_nonzero).
    now apply product_nonnegative.
Qed.

(** What the plain conversion keeps over the forward formula. *)
Lemma plain_conversion_surplus (a f k t r : Qc) :
  a * r - (a * k - f) * t * r =
  r * (a * (1 - k) + a * k * (1 - t) + f * t).
Proof. ring. Qed.

(** ** The page *)

Lemma returned_number (x y : Qc) (pg pg' : page) :
  (@inr exn Qc x, pg) = (inr y, pg') -> x = y.
Proof. intros H. now inversion H. Qed.

(** ** Properties *)

(** The forward formula stays below the plain conversion. *)
Lemma forward_formula_below_plain (a f k t r : Qc) :
  0 <= a -> 0 <= f -> 0 <= r ->
  0 <= k -> 0 <= 1 - k -> 0 <= t -> 0 <= 1 - t ->
  (a * k - f) * t * r <= a * r.
Proof.
  intros Ha Hf Hr Hk Hk' Ht Ht'.
  apply (proj2 (Qcle_minus_iff _ _)).
  replace (a * r + - ((a * k - f) * t * r))
    with (r * (a * (1 - k) + a * k * (1 - t) + f * t))
    by (rewrite <- plain_conversion_surplus; ring).
  apply product_nonnegative; [exact Hr |].
  repeat apply sum_nonnegative; repeat apply product_nonnegative; assumption.
Qed.

(** X7.  Fees only take: for an amount, a fixed fee and a rate that are
    not negative and a fee and a tax between 0 and 100 %,
    [calculate_inr_from_usd] returns at most the plain conversion
    [amount * rate]. *)
Theorem forward_at_most_plain_conversion
    (amount_usd fee_percent fixed_fee tax_percent rate received : Qc) (pg : page) :
  0 <= amount_usd -> 0 <= fixed_fee -> 0 <= rate ->
  0 <= fee_percent -> fee_percent <= hundred ->
  0 <= tax_percent -> tax_percent <= hundred ->
  calculate_inr_from_usd amount_usd fee_percent fixed_fee tax_percent rate pg =
  (inr received, pg) ->
  received <= amount_usd * rate.
Proof.
  intros Ha Hf Hr Hp0 Hp1 Ht0 Ht1 E.
  rewrite run_calculate_inr_from_usd in E. apply returned_number in E.
  rewrite <- E.
  destruct (complement_range _ Hp0 Hp1) as [Hk Hk'].
  destruct (complement_range _ Ht0 Ht1) as [Ht Ht'].
  now apply forward_formula_below_plain.
Qed.

(** X7 at the defaults of the form: 100 USD give 7814.6 INR, at most
    8200 INR. *)
Lemma forward_at_most_plain_conversion_witness :
  Lit.dec 78146 10 <= Lit.int 100 * Lit.int 82.
Proof.
  apply (forward_at_most_plain_conversion
           (Lit.int 100) (Lit.dec 44 10) (Lit.dec 30 100) 0 (Lit.int 82)
           (Lit.dec 78146 10) []).
  - intros H. discriminate H.
  - intros H. discriminate H.
  - intros H. discriminate H.
  - intros H. discriminate H.
  - intros H. discriminate H.
  - intros H. discriminate H.
  - intros H. discriminate H.
  - rewrite run_calculate_inr_from_usd. apply same_return. evaluate.
Defined.

(** * Properties of the script *)

(** ** Running [main] *)

Lemma run_main (format_2f : Qc -> string) (s : session) (pg : list element) :
  main format_2f s pg =
  (inr tt,
   pg ++
   [el_title "PayPal Fee & Currency Conversion Calculator";
    el_write introduction;
    el_sidebar_header "Configure Fees & Rates";
    el_sidebar_number_input paypal_fee_percent_input;
    el_sidebar_number_input paypal_fixed_fee_usd_input;
    el_sidebar_number_input tax_percent_input;
    el_sidebar_number_input usd_to_inr_rate_input;
    el_subheader "1. USD → INR Calculation";
    el_write "**How much INR will I receive if someone sends me X USD?**";
    el_form_enter "usd_to_inr";
    el_number_input usd_amount_input;
    el_form_submit_button "Calculate INR"] ++
   first_form_report format_2f s ++
   [el_form_exit "usd_to_inr";
    el_markdown "---";
    el_subheader "2. Target INR → Required USD Calculation";
    el_write "**I want to receive X INR in my bank. How much USD should I invoice so that after all fees I get that INR?**";
    el_form_enter "inr_to_usd";
    el_number_input inr_target_input;
    el_form_submit_button "Calculate USD"] ++
   second_form_report format_2f s ++
   [el_form_exit "inr_to_usd"]).
Proof.
  unfold main, script_bind, st_title, st_write, st_sidebar_header, st_subheader,
    st_markdown, st_success, emit, st_sidebar_number_input, st_number_input,
    st_form_submit_button, with_form, call, script_ret.
  rewrite run_calculate_inr_from_usd, run_calculate_usd_for_target_inr.
  unfold first_form_report, second_form_report,
    paypal_fee_percent_of, paypal_fixed_fee_usd_of, tax_percent_of,
    usd_to_inr_rate_of, usd_amount_of, inr_target_of.
  destruct (clicked s "Calculate INR"), (clicked s "Calculate USD");
    try destruct (degenerate _ _ _);
    cbn [map shown app]; rewrite <- ?app_assoc; reflexivity.
Qed.

Lemma rendered_page (format_2f : Qc -> string) (s : session) :
  rendered format_2f s =
  [el_title "PayPal Fee & Currency Conversion Calculator";
   el_write introduction;
   el_sidebar_header "Configure Fees & Rates";
   el_sidebar_number_input paypal_fee_percent_input;
   el_sidebar_number_input paypal_fixed_fee_usd_input;
   el_sidebar_number_input tax_percent_input;
   el_sidebar_number_input usd_to_inr_rate_input;
   el_subheader "1. USD → INR Calculation";
   el_write "**How much INR will I receive if someone sends me X USD?**";
   el_form_enter "usd_to_inr";
   el_number_input usd_amount_input;
   el_form_submit_button "Calculate INR"] ++
  first_form_report format_2f s ++
  [el_form_exit "usd_to_inr";
   el_markdown "---";
   el_subheader "2. Target INR → Required USD Calculation";
   el_write "**I want to receive X INR in my bank. How much USD should I invoice so that after all fees I get that INR?**";
   el_form_enter "inr_to_usd";
   el_number_input inr_target_input;
   el_form_submit_button "Calculate USD"] ++
  second_form_report format_2f s ++
  [el_form_exit "inr_to_usd"].
Proof. unfold rendered. now rewrite run_main. Qed.

(** The reports of the forms hold results only. *)
Lemma first_form_report_results (format_2f : Qc -> string) (s : session) :
  filter is_result (first_form_report format_2f s) = first_form_report format_2f s
  /\ filter (fun e => negb (is_result e)) (first_form_report format_2f s) = [].
Proof.
  unfold first_form_report. now destruct (clicked s "Calculate INR").
Qed.

Lemma second_form_report_results (format_2f : Qc -> string) (s : session) :
  filter is_result (second_form_report format_2f s) = second_form_report format_2f s
  /\ filter (fun e => negb (is_result e)) (second_form_report format_2f s) = [].
Proof.
  unfold second_form_report.
  destruct (clicked s "Calculate USD"); [| easy].
  now destruct (degenerate _ _ _).
Qed.

Lemma results_of_rendered (format_2f : Qc -> string) (s : session) :
  filter is_result (rendered format_2f s) =
  first_form_report format_2f s ++ second_form_report format_2f s.
Proof.
  rewrite rendered_page, !filter_app.
  rewrite (proj1 (first_form_report_results format_2f s)).
  rewrite (proj1 (second_form_report_results format_2f s)).
  cbn [filter is_result app]. now rewrite app_nil_r.
Qed.

Lemma in_results (format_2f : Qc -> string) (s : session) (e : element) :
  is_result e = true ->
  In e (rendered format_2f s) <->
  In e (first_form_report format_2f s) \/ In e (second_form_report format_2f s).
Proof.
  intros He. rewrite <- in_app_iff, <- results_of_rendered, filter_In.
  now rewrite He.
Qed.

Lemma first_form_report_no_error
    (format_2f : Qc -> string) (s : session) (body : string) :
  ~ In (el_error body) (first_form_report format_2f s).
Proof.
  unfold first_form_report. destruct (clicked s "Calculate INR").
  - intros [H | []]. discriminate H.
  - intros [].
Qed.

Lemma second_form_report_error
    (format_2f : Qc -> string) (s : session) (body : string) :
  In (el_error body) (second_form_report format_2f s) ->
  clicked s "Calculate USD" = true /\
  degenerate (paypal_fee_percent_of s) (tax_percent_of s)
    (usd_to_inr_rate_of s) = true.
Proof.
  unfold second_form_report. destruct (clicked s "Calculate USD").
  - destruct (degenerate _ _ _).
    + now split.
    + intros [H | []]. discriminate H.
  - intros [].
Qed.

Lemma regroup_end {A : Type} (l1 l2 l3 : list A) (a b c : A) :
  l1 ++ l2 ++ l3 ++ [a; b] ++ [c] = (l1 ++ l2 ++ l3) ++ [a; b; c].
Proof. rewrite <- !app_assoc. reflexivity. Qed.

(** A session that respects the minimums has a rate of at least 1. *)
Lemma rate_at_least_one (s : session) :
  within_minimums s -> usd_to_inr_rate_of s <> 0.
Proof.
  unfold within_minimums, number_inputs. intros H.
  repeat (apply Forall_cons_iff in H as [? H]).
  assert (Hr : 1 <= usd_to_inr_rate_of s) by assumption.
  intros E. rewrite E in Hr. revert Hr. now apply Qclt_not_le.
Qed.

(** ** Properties *)

(** X10.  [main] raises nothing, whatever numbers the inputs hold and
    whichever buttons were clicked, and it only adds to the page. *)
Theorem main_never_raises
    (format_2f : Qc -> string) (s : session) (pg : list element) :
  exists added : list element,
    main format_2f s pg = (inr tt, pg ++ added).
Proof. rewrite run_main. eauto. Qed.

(** X11.  The session changes the result elements only: without its
    [st.success] and [st.error] elements the rendered page is the same in
    every run. *)
Theorem layout_same_in_every_run
    (format_2f format_2f' : Qc -> string) (s s' : session) :
  filter (fun e => negb (is_result e)) (rendered format_2f s) =
  filter (fun e => negb (is_result e)) (rendered format_2f' s').
Proof.
  rewrite !rendered_page, !filter_app.
  rewrite (proj2 (first_form_report_results format_2f s)).
  rewrite (proj2 (second_form_report_results format_2f s)).
  rewrite (proj2 (first_form_report_results format_2f' s')).
  rewrite (proj2 (second_form_report_results format_2f' s')).
  reflexivity.
Qed.

(** X12.  Without a click on one of the two submit buttons a run reports
    nothing: the page has no [st.success] and no [st.error] element. *)
Theorem no_click_no_result (format_2f : Qc -> string) (s : session) :
  clicked s "Calculate INR" = false ->
  clicked s "Calculate USD" = false ->
  filter is_result (rendered format_2f s) = [].
Proof.
  intros H1 H2. rewrite results_of_rendered.
  unfold first_form_report, second_form_report. now rewrite H1, H2.
Qed.

(** X12 at a first run with no button clicked. *)
Lemma no_click_no_result_witness :
  filter is_result
    (rendered (fun _ => EmptyString) (first_run (fun _ => false))) = [].
Proof.
  apply (no_click_no_result (fun _ => EmptyString) (first_run (fun _ => false)));
    reflexivity.
Defined.

(** X13.  A click on "Calculate INR" reports what
    [calculate_inr_from_usd] returns for the amount of the form and the
    four numbers of the sidebar, negative or not, in an [st.success]
    element. *)
Theorem calculate_inr_click_reports (format_2f : Qc -> string) (s : session) :
  clicked s "Calculate INR" = true ->
  exists inr_received : Qc,
    calculate_inr_from_usd
      (usd_amount_of s) (paypal_fee_percent_of s) (paypal_fixed_fee_usd_of s)
      (tax_percent_of s) (usd_to_inr_rate_of s) [] = (inr inr_received, []) /\
    In (el_success (inr_received_text format_2f inr_received))
       (rendered format_2f s).
Proof.
  intros H. eexists. split.
  - apply run_calculate_inr_from_usd.
  - apply in_results; [reflexivity |]. left.
    unfold first_form_report. rewrite H. now left.
Qed.

(** X13 at a first run with both buttons clicked. *)
Lemma calculate_inr_click_reports_witness :
  exists inr_received : Qc,
    calculate_inr_from_usd
      (Lit.int 100) (Lit.dec 44 10) (Lit.dec 30 100) 0 (Lit.int 82) [] =
    (inr inr_received, []) /\
    In (el_success (inr_received_text (fun _ => EmptyString) inr_received))
       (rendered (fun _ => EmptyString) (first_run (fun _ => true))).
Proof.
  apply (calculate_inr_click_reports
           (fun _ => EmptyString) (first_run (fun _ => true))).
  reflexivity.
Defined.

(** X14.  A click on "Calculate USD" with a fee of 100 %, a tax of 100 %
    or a rate of 0 puts the error element on the page and, right after
    it, the [st.success] element that reports 0 USD for the target; the
    form ends there. *)
Theorem degenerate_click_shows_error_then_zero
    (format_2f : Qc -> string) (s : session) :
  clicked s "Calculate USD" = true ->
  paypal_fee_percent_of s = hundred \/ tax_percent_of s = hundred
  \/ usd_to_inr_rate_of s = 0 ->
  exists before : list element,
    rendered format_2f s =
    before ++
    [el_error invalid_parameters;
     el_success (usd_required_text format_2f (inr_target_of s) 0);
     el_form_exit "inr_to_usd"].
Proof.
  intros Hc Hd. apply degenerate_iff in Hd.
  rewrite rendered_page. unfold second_form_report. rewrite Hc, Hd.
  eexists. apply regroup_end.
Qed.

(** X14 in a run where every number input holds 100 and both buttons
    were clicked. *)
Lemma degenerate_click_shows_error_then_zero_witness :
  exists before : list element,
    rendered (fun _ => EmptyString)
      {| numbers := fun _ => hundred; clicked := fun _ => true |} =
    before ++
    [el_error invalid_parameters;
     el_success (usd_required_text (fun _ => EmptyString) hundred 0);
     el_form_exit "inr_to_usd"].
Proof.
  apply (degenerate_click_shows_error_then_zero
           (fun _ => EmptyString)
           {| numbers := fun _ => hundred; clicked := fun _ => true |}).
  - reflexivity.
  - left. reflexivity.
Defined.

(** X15.  With numbers that respect the minimums of the number inputs
    the rate is at least 1, so an error element is on the rendered page
    exactly when "Calculate USD" was clicked with a fee of 100 % or a tax
    of 100 %. *)
Theorem error_exactly_at_full_fee_or_tax
    (format_2f : Qc -> string) (s : session) :
  within_minimums s ->
  (exists body : string, In (el_error body) (rendered format_2f s)) <->
  clicked s "Calculate USD" = true /\
  (paypal_fee_percent_of s = hundred \/ tax_percent_of s = hundred).
Proof.
  intros Hm. pose proof (rate_at_least_one s Hm) as Hr.
  pose proof (degenerate_iff (paypal_fee_percent_of s) (tax_percent_of s)
                (usd_to_inr_rate_of s)) as Hd.
  split.
  - intros [body Hin]. apply in_results in Hin; [| reflexivity].
    destruct Hin as [Hin | Hin].
    + now apply first_form_report_no_error in Hin.
    + apply second_form_report_error in Hin as [Hc G].
      split; [exact Hc |].
      destruct (proj1 Hd G) as [H | [H | H]];
        [now left | now right | contradiction].
  - intros [Hc Hfull]. exists invalid_parameters.
    apply in_results; [reflexivity |]. right.
    unfold second_form_report. rewrite Hc.
    assert (G : degenerate (paypal_fee_percent_of s) (tax_percent_of s)
                  (usd_to_inr_rate_of s) = true)
      by (apply Hd; destruct Hfull; [now left | now right; left]).
    rewrite G. now left.
Qed.

(** X15 in a run where every number input holds 100 and both buttons
    were clicked. *)
Lemma error_exactly_at_full_fee_or_tax_witness :
  (exists body : string,
      In (el_error body)
         (rendered (fun _ => EmptyString)
            {| numbers := fun _ => hundred; clicked := fun _ => true |})) <->
  true = true /\ (hundred = hundred \/ hundred = hundred).
Proof.
  apply (error_exactly_at_full_fee_or_tax
           (fun _ => EmptyString)
           {| numbers := fun _ => hundred; clicked := fun _ => true |}).
  unfold within_minimums, number_inputs.
  repeat constructor; intros H; discriminate H.
Defined.

(** X16.  A click on "Calculate USD" reports what
    [calculate_usd_for_target_inr] returns for the target of the form and
    the four numbers of the sidebar, in an [st.success] element, and the
    page has an error element exactly for what that call emitted. *)
Theorem calculate_usd_click_reports (format_2f : Qc -> string) (s : session) :
  clicked s "Calculate USD" = true ->
  exists (usd_required : Qc) (emitted : page),
    calculate_usd_for_target_inr
      (inr_target_of s) (paypal_fee_percent_of s) (paypal_fixed_fee_usd_of s)
      (tax_percent_of s) (usd_to_inr_rate_of s) [] = (inr usd_required, emitted) /\
    In (el_success (usd_required_text format_2f (inr_target_of s) usd_required))
       (rendered format_2f s) /\
    (forall body : string,
        In (el_error body) (rendered format_2f s) <->
        In (st_error body) emitted).
Proof.
  intros Hc.
  pose proof (in_results format_2f s) as Hin.
  unfold second_form_report in Hin. rewrite Hc in Hin.
  rewrite run_calculate_usd_for_target_inr.
  destruct (degenerate _ _ _); eexists; eexists; (split; [reflexivity |]).
  - split.
    + apply Hin; [reflexivity |]. right. right. now left.
    + intros body. rewrite (Hin (el_error body) eq_refl). cbn [app In]. split.
      * intros [H | [H | [H | []]]].
        -- now apply first_form_report_no_error in H.
        -- left. now injection H as ->.
        -- discriminate H.
      * intros [H | []]. right. left. now injection H as ->.
  - split.
    + apply Hin; [reflexivity |]. right. now left.
    + intros body. rewrite (Hin (el_error body) eq_refl). cbn [In]. split.
      * intros [H | [H | []]].
        -- now apply first_form_report_no_error in H.
        -- discriminate H.
      * intros [].
Qed.

(** X16 at a first run with both buttons clicked: the defaults of the
    form and a target of 10000 INR. *)
Lemma calculate_usd_click_reports_witness :
  exists (usd_required : Qc) (emitted : page),
    calculate_usd_for_target_inr
      (Lit.int 10000) (Lit.dec 44 10) (Lit.dec 30 100) 0 (Lit.int 82) [] =
    (inr usd_required, emitted) /\
    In (el_success
          (usd_required_text (fun _ => EmptyString) (Lit.int 10000) usd_required))
       (rendered (fun _ => EmptyString) (first_run (fun _ => true))) /\
    (forall body : string,
        In (el_error body)
           (rendered (fun _ => EmptyString) (first_run (fun _ => true))) <->
        In (st_error body) emitted).
Proof.
  apply (calculate_usd_click_reports
           (fun _ => EmptyString) (first_run (fun _ => true))).
  reflexivity.
Defined.

(** * The two calculations on binary64 *)

(** A decimal literal stands for the nearest binary64 number, as in
    Python. *)
#[local] Set Warnings "-inexact-float".

(** ** Running the rounded functions *)

Lemma binary64_hundred_nonzero : Binary64.py_eq 100 0 = false.
Proof. reflexivity. Qed.

Lemma binary64_full_fee : Binary64.py_eq (1 - 100 / 100) 0 = true.
Proof. reflexivity. Qed.

Lemma binary64_truediv_hundred (x : float) (pg : page) :
  Binary64.truediv x 100 pg = (inr (x / 100)%float, pg).
Proof. unfold Binary64.truediv. now rewrite binary64_hundred_nonzero. Qed.

Lemma binary64_truediv_accepted (x y : float) (pg : page) :
  Binary64.py_eq y 0 = false ->
  Binary64.truediv x y pg = (inr (x / y)%float, pg).
Proof. intros H. unfold Binary64.truediv. now rewrite H. Qed.

(** The inverse calculation on binary64, by cases on the guard. *)
Lemma binary64_run_calculate_usd_for_target_inr
    (target fee fixed tax rate : float) (pg : page) :
  Binary64.calculate_usd_for_target_inr target fee fixed tax rate pg =
  if (Binary64.py_eq (rate * (1 - tax / 100)) 0
      || Binary64.py_eq (1 - fee / 100) 0)%bool
  then (inr 0%float, pg ++ [st_error invalid_parameters])
  else (inr ((target / (rate * (1 - tax / 100)) + fixed) / (1 - fee / 100))%float,
        pg).
Proof.
  unfold Binary64.calculate_usd_for_target_inr, bind.
  rewrite !binary64_truediv_hundred.
  destruct (Binary64.py_eq (rate * (1 - tax / 100)) 0) eqn:Gd;
    destruct (Binary64.py_eq (1 - fee / 100) 0) eqn:Gp; cbn [orb];
    try reflexivity.
  now rewrite (binary64_truediv_accepted _ _ _ Gd),
    (binary64_truediv_accepted _ _ _ Gp).
Qed.

(** ** Where rounding breaks the exact properties *)



(** ** Properties *)

(** X17.  Division safety on binary64: for all floats, NaN and the
    infinities included, and every page, [calculate_usd_for_target_inr]
    returns a number; the guard tests the two divisors with the very
    comparison that makes a division raise. *)
Theorem binary64_calculate_usd_for_target_inr_total
    (target_inr fee_percent fixed_fee tax_percent rate : float) (pg : page) :
  exists (usd : float) (pg' : page),
    Binary64.calculate_usd_for_target_inr
      target_inr fee_percent fixed_fee tax_percent rate pg = (inr usd, pg').
Proof.
  rewrite binary64_run_calculate_usd_for_target_inr.
  destruct (_ || _)%bool; eauto.
Qed.

(** X18.  On binary64 a fee of 100 % is rejected whatever the other
    numbers are, NaN and the infinities included: the error element is
    emitted and 0.0 is returned. *)
Theorem binary64_full_fee_rejected
    (target_inr fixed_fee tax_percent rate : float) (pg : page) :
  Binary64.calculate_usd_for_target_inr
    target_inr 100 fixed_fee tax_percent rate pg =
  (inr 0%float, pg ++ [st_error invalid_parameters]).
Proof.
  rewrite binary64_run_calculate_usd_for_target_inr.
  now rewrite binary64_full_fee, Bool.orb_true_r.
Qed.
